(** * exchangelib.recurrence: recurrence vocabulary, fields and patterns

    A shallow embedding of [exchangelib/recurrence.py]: the enumeration
    tuples, [ExtraWeekdaysField.clean], the pattern classes with their
    [FIELDS] declarations and [__str__] renderings, and the occurrence
    classes.  Python values are a tagged union, exceptions are an explicit
    error type, and objects are attribute stores keyed by attribute name. *)

From Stdlib Require Import ZArith Lia DecimalString DecimalPos DecimalZ.
From stdpp Require Import base option list strings gmap.

Local Open Scope Z_scope.

(** ** Python values, exceptions and built-ins *)

Module Py.

(** The run-time values that reach this module's fields. *)
#[warning="-register-all"]
Inductive value : Type :=
| VNone
| VInt (z : Z)
| VStr (s : string)
| VList (l : list value)
| VDate (ordinal : Z)
| VDateTime (timestamp : Z)
| VItemId (id changekey : string).

(** What a rejected value was measured against. *)
Inductive legal : Type :=
| InRange (lo hi : option Z)
| OneOf (vocabulary : list string)
| OfKind (kind : string)
| ReadOnly.

(** [ValueError] is what recurrence.py raises itself.  [InvalidInput] is the
    rejection of the field framework (fields.py), carrying the field name,
    the offending value and the legal range or vocabulary. *)
Inductive exn : Type :=
| ValueError (msg : string)
| InvalidInput (field_name : string) (offending : value) (allowed : legal)
| IndexError (msg : string)
| TypeError (msg : string)
| AttributeError (attr : string).

Inductive result (A : Type) : Type :=
| Ok (a : A)
| Raise (e : exn).
Arguments Ok {A} a.
Arguments Raise {A} e.

#[export] Instance result_ret : MRet result := fun A a => Ok a.
#[export] Instance result_bind : MBind result := fun A B k c =>
  match c with
  | Ok a => k a
  | Raise e => Raise e
  end.

(** Both error forms are the specification's single invalid-input kind. *)
Definition invalid_input (e : exn) : bool :=
  match e with
  | ValueError _ | InvalidInput _ _ _ => true
  | _ => false
  end.

Definition raises_invalid_input {A} (r : result A) : Prop :=
  match r with
  | Ok _ => False
  | Raise e => invalid_input e = true
  end.

(** [isinstance(x, string_types)] and [isinstance(x, int)]. *)
Definition isinstance_string_types (x : value) : bool :=
  match x with VStr _ => true | _ => false end.

Definition isinstance_int (x : value) : bool :=
  match x with VInt _ => true | _ => false end.

(** [str(n)] for an integer: the decimal numeral, with a minus sign. *)
Definition str_int (z : Z) : string := NilZero.string_of_int (Z.to_int z).

(** [sep.join(parts)]. *)
Fixpoint join (sep : string) (parts : list string) : string :=
  match parts with
  | [] => ""
  | [p] => p
  | p :: rest => p +:+ sep +:+ join sep rest
  end.

(** [repr] of a tuple of plain strings, as [%s] prints it. *)
Definition repr_str (s : string) : string := "'" +:+ s +:+ "'".

Definition repr_tuple (t : list string) : string :=
  match t with
  | [x] => "(" +:+ repr_str x +:+ ",)"
  | _ => "(" +:+ join ", " (repr_str <$> t) +:+ ")"
  end.

(** [x in t] for a tuple of strings: only an equal string is a member. *)
Definition py_in (x : value) (t : list string) : bool :=
  match x with
  | VStr s => existsb (String.eqb s) t
  | _ => false
  end.

(** [t.index(x)] on strings: position of the first equal member. *)
Fixpoint index_of (s : string) (t : list string) : option nat :=
  match t with
  | [] => None
  | x :: rest => if String.eqb s x then Some O else S <$> index_of s rest
  end.

Definition tuple_index (t : list string) (x : value) : result Z :=
  match x with
  | VStr s =>
      match index_of s t with
      | Some i => Ok (Z.of_nat i)
      | None => Raise (ValueError "tuple.index(x): x not in tuple")
      end
  | _ => Raise (ValueError "tuple.index(x): x not in tuple")
  end.

(** The largest index a sequence takes: [sys.maxsize] of a 64-bit CPython. *)
Definition maxsize : Z := 2 ^ 63 - 1.

(** [t[k]]: an index that does not fit a machine word is refused before the
    tuple is looked at; otherwise a negative index counts from the end and
    anything outside the tuple raises.  Both refusals are [IndexError]s and
    differ in their text only. *)
Definition tuple_getitem {A} (t : list A) (k : Z) : result A :=
  if (k <? - maxsize - 1) || (maxsize <? k) then
    Raise (IndexError "cannot fit 'int' into an index-sized integer")
  else
    let n := Z.of_nat (length t) in
    let k' := if k <? 0 then k + n else k in
    if (0 <=? k') && (k' <? n) then
      match t !! Z.to_nat k' with
      | Some x => Ok x
      | None => Raise (IndexError "tuple index out of range")
      end
    else Raise (IndexError "tuple index out of range").

(** [list(x)]: only a sequence can be converted here (a string never
    reaches the call). *)
Definition py_list (x : value) : result (list value) :=
  match x with
  | VList l => Ok l
  | _ => Raise (TypeError "object is not iterable")
  end.

(** [%s] of a value inside a message.  Exact for integers, strings and
    [None]; the text of the other classes is defined outside this module and
    no message this module can produce prints one of them. *)
Definition str_value (x : value) : string :=
  match x with
  | VInt z => str_int z
  | VStr s => s
  | VNone => "None"
  | _ => "<object>"
  end.

End Py.
Import Py.

(** ** The enumeration tuples (recurrence.py, lines 12-52) *)

Definition FIRST : string := "First".
Definition SECOND : string := "Second".
Definition THIRD : string := "Third".
Definition FOURTH : string := "Fourth".
Definition LAST : string := "Last".
Definition WEEK_NUMBERS : list string := [FIRST; SECOND; THIRD; FOURTH; LAST].

Definition JANUARY : string := "January".
Definition FEBRUARY : string := "February".
Definition MARCH : string := "March".
Definition APRIL : string := "April".
Definition MAY : string := "May".
Definition JUNE : string := "June".
Definition JULY : string := "July".
Definition AUGUST : string := "August".
Definition SEPTEMBER : string := "September".
Definition OCTOBER : string := "October".
Definition NOVEMBER : string := "November".
Definition DECEMBER : string := "December".
Definition MONTHS : list string :=
  [JANUARY; FEBRUARY; MARCH; APRIL; MAY; JUNE; JULY; AUGUST; SEPTEMBER;
   OCTOBER; NOVEMBER; DECEMBER].

Definition MONDAY : string := "Monday".
Definition TUESDAY : string := "Tuesday".
Definition WEDNESDAY : string := "Wednesday".
Definition THURSDAY : string := "Thursday".
Definition FRIDAY : string := "Friday".
Definition SATURDAY : string := "Saturday".
Definition SUNDAY : string := "Sunday".
Definition WEEKDAY_NAMES : list string :=
  [MONDAY; TUESDAY; WEDNESDAY; THURSDAY; FRIDAY; SATURDAY; SUNDAY].

Definition DAY : string := "Day".
Definition WEEK_DAY : string := "Weekday".
Definition WEEKEND_DAY : string := "WeekendDay".
Definition EXTRA_WEEKDAY_OPTIONS : list string := [DAY; WEEK_DAY; WEEKEND_DAY].

Definition WEEKDAYS : list string := WEEKDAY_NAMES ++ EXTRA_WEEKDAY_OPTIONS.

(** The wire index of a member: [enum.index(name) + 1]. *)
Definition wire_index (enum : list string) (name : string) : result Z :=
  i ← tuple_index enum (VStr name); Ok (i + 1).

(** ** Field declarations and the inherited validation step

    recurrence.py imports its field classes from fields.py and only declares
    fields with them.  A declaration is kept as data: the field class and
    the keyword arguments given at the declaration site. *)

Module Field.

(** The field classes that recurrence.py declares fields with. *)
Inductive field_class : Type :=
| IntegerFieldCls
| EnumFieldCls
| EnumListFieldCls
| ExtraWeekdaysFieldCls
| DateFieldCls
| DateTimeFieldCls
| EWSElementFieldCls.

(** One declaration; an argument the site leaves out is [None], empty or
    [false]. *)
Record t : Type := mk {
  cls : field_class;
  name : string;
  field_uri : option string;
  min : option Z;
  max : option Z;
  enum : list string;
  default : option value;
  is_read_only : bool
}.

End Field.

(** [IntegerField(name, field_uri=.., min=.., max=..)]. *)
Definition IntegerField (name field_uri : string) (min max : option Z) : Field.t :=
  Field.mk Field.IntegerFieldCls name (Some field_uri) min max [] None false.

(** [EnumField(name, field_uri=.., enum=.., default=..)]. *)
Definition EnumField (name field_uri : string) (enum : list string)
    (default : option value) : Field.t :=
  Field.mk Field.EnumFieldCls name (Some field_uri) None None enum default false.

(** [EnumListField(name, field_uri=.., enum=..)]. *)
Definition EnumListField (name field_uri : string) (enum : list string) : Field.t :=
  Field.mk Field.EnumListFieldCls name (Some field_uri) None None enum None false.

(** [ExtraWeekdaysField.__init__] (lines 56-58): the enum is always [WEEKDAYS]. *)
Definition ExtraWeekdaysField (name field_uri : string) : Field.t :=
  Field.mk Field.ExtraWeekdaysFieldCls name (Some field_uri) None None WEEKDAYS None false.

(** [DateField(name, field_uri=..)]. *)
Definition DateField (name field_uri : string) : Field.t :=
  Field.mk Field.DateFieldCls name (Some field_uri) None None [] None false.

(** [DateTimeField(name, field_uri=..)]. *)
Definition DateTimeField (name field_uri : string) : Field.t :=
  Field.mk Field.DateTimeFieldCls name (Some field_uri) None None [] None false.

(** [EWSElementField(name, value_cls=ItemId, is_read_only=..)]. *)
Definition EWSElementField (name : string) (is_read_only : bool) : Field.t :=
  Field.mk Field.EWSElementFieldCls name None None None [] None is_read_only.

(** Modelled from the spec: [IntegerField.clean] of fields.py, which is not
    part of recurrence.py.  The spec describes a bounded integer whose clean
    step returns the stored form or raises an invalid-input error carrying
    the field name, the offending value and the legal range. *)
Definition IntegerField_clean (self : Field.t) (value : value) : result Py.value :=
  match value with
  | VInt z =>
      let too_low := match Field.min self with Some lo => z <? lo | None => false end in
      let too_high := match Field.max self with Some hi => hi <? z | None => false end in
      if too_low || too_high
      then Raise (InvalidInput (Field.name self) value
                    (InRange (Field.min self) (Field.max self)))
      else Ok value
  | _ => Raise (InvalidInput (Field.name self) value (OfKind "integer"))
  end.

(** Modelled from the spec: [EnumField.clean] of fields.py.  The spec
    describes a single-valued enumeration over a string vocabulary with
    1-based wire index, accepting the symbolic name in place of the index. *)
Definition EnumField_clean (self : Field.t) (value : value) : result Py.value :=
  match value with
  | VStr _ =>
      if py_in value (Field.enum self)
      then i ← tuple_index (Field.enum self) value; Ok (VInt (i + 1))
      else Raise (InvalidInput (Field.name self) value (OneOf (Field.enum self)))
  | VInt z =>
      let n := Z.of_nat (length (Field.enum self)) in
      if (1 <=? z) && (z <=? n) then Ok value
      else Raise (InvalidInput (Field.name self) value (InRange (Some 1) (Some n)))
  | _ => Raise (InvalidInput (Field.name self) value (OneOf (Field.enum self)))
  end.

(** Modelled from the spec: [EnumListField.clean] of fields.py, the generic
    list-field validation step: value-kind, enum-membership and range
    enforcement on every element.  The spec leaves deduplication and
    ordering to the framework and defines neither, so the list is kept as
    given; no property below rests on what this step does with an empty
    list or with repeated entries. *)
Definition EnumListField_clean (self : Field.t) (value : value) : result Py.value :=
  match value with
  | VList l => l' ← mapM (EnumField_clean self) l; Ok (VList l')
  | _ => Raise (InvalidInput (Field.name self) value (OfKind "list"))
  end.

(** Modelled from the spec: [DateField.clean] of fields.py, a value-kind
    check for a calendar date. *)
Definition DateField_clean (self : Field.t) (value : value) : result Py.value :=
  match value with
  | VDate _ => Ok value
  | _ => Raise (InvalidInput (Field.name self) value (OfKind "date"))
  end.

(** Modelled from the spec: [DateTimeField.clean] of fields.py, a value-kind
    check for a date-time. *)
Definition DateTimeField_clean (self : Field.t) (value : value) : result Py.value :=
  match value with
  | VDateTime _ => Ok value
  | _ => Raise (InvalidInput (Field.name self) value (OfKind "date-time"))
  end.

(** Modelled from the spec: [EWSElementField.clean] of fields.py, a
    value-kind check for the nested item reference ([ItemId]). *)
Definition EWSElementField_clean (self : Field.t) (value : value) : result Py.value :=
  match value with
  | VItemId _ _ => Ok value
  | _ => Raise (InvalidInput (Field.name self) value (OfKind "ItemId"))
  end.

(** ** ExtraWeekdaysField.clean (recurrence.py, lines 60-79) *)

(** The loop of lines 71-78.  [items] is what is left of [enumerate(value)],
    [i] the current position and [value] the list that the loop updates in
    place.  The first test is made on [value], the whole list. *)
Fixpoint clean_loop (self : Field.t) (value : list Py.value) (i : nat)
    (items : list Py.value) : result (list Py.value) :=
  match items with
  | [] => Ok value
  | v :: rest =>
      if isinstance_string_types (VList value) then
        if negb (py_in v WEEKDAY_NAMES) then
          Raise (ValueError ("List value '" +:+ str_value v +:+ "' on field '"
                             +:+ Field.name self +:+ "' must be one of "
                             +:+ repr_tuple WEEKDAY_NAMES))
        else
          k ← tuple_index (Field.enum self) v;
          clean_loop self (<[i := VInt (k + 1)]> value) (S i) rest
      else
        match v with
        | VInt z =>
            if negb ((1 <=? z) && (z <=? 7)) then
              Raise (ValueError ("List value '" +:+ str_value v +:+ "' on field '"
                                 +:+ Field.name self
                                 +:+ "' must be in range 1 -> 7"))
            else clean_loop self value (S i) rest
        | _ => clean_loop self value (S i) rest
        end
  end.

(** Lines 60-78: everything before the call of the inherited clean.
    [self.value_cls] is the integer class for this family of fields. *)
Definition normalize (self : Field.t) (value : value) : result Py.value :=
  if isinstance_string_types value then
    if negb (py_in value EXTRA_WEEKDAY_OPTIONS) then
      Raise (ValueError ("Single value '" +:+ str_value value +:+ "' on field '"
                         +:+ Field.name self +:+ "' must be one of "
                         +:+ repr_tuple EXTRA_WEEKDAY_OPTIONS))
    else
      k ← tuple_index (Field.enum self) value; Ok (VList [VInt (k + 1)])
  else if isinstance_int value then Ok (VList [value])
  else
    l ← py_list value;
    l' ← clean_loop self l 0 l;
    Ok (VList l').

(** Line 79: the normalized value goes to the inherited list clean. *)
Definition ExtraWeekdaysField_clean (self : Field.t) (value : value) : result Py.value :=
  value' ← normalize self value;
  EnumListField_clean self value'.

(** The clean step a declared field runs, by its class. *)
Definition clean (self : Field.t) (value : value) : result Py.value :=
  match Field.cls self with
  | Field.IntegerFieldCls => IntegerField_clean self value
  | Field.EnumFieldCls => EnumField_clean self value
  | Field.EnumListFieldCls => EnumListField_clean self value
  | Field.ExtraWeekdaysFieldCls => ExtraWeekdaysField_clean self value
  | Field.DateFieldCls => DateField_clean self value
  | Field.DateTimeFieldCls => DateTimeField_clean self value
  | Field.EWSElementFieldCls => EWSElementField_clean self value
  end.

(** ** Schema elements: classes, instances, construction and assignment *)

Module EWSElement.

(** What a class of recurrence.py declares. *)
Record class : Type := mk_class {
  ELEMENT_NAME : string;
  FIELDS : list Field.t
}.

(** An instance: its class and the attributes stored on it. *)
Record t : Type := mk {
  cls : class;
  attrs : gmap string value
}.

(** The declaration of the field called [name], if the class has one. *)
Definition get_field (c : class) (name : string) : option Field.t :=
  List.find (fun f => String.eqb (Field.name f) name) (FIELDS c).

(** Reading an attribute of an instance. *)
Definition getattr (self : t) (name : string) : option value :=
  attrs self !! name.

(** Modelled from the spec: attribute assignment on a schema element
    ([EWSElement] in folders.py, not part of recurrence.py).  The value
    passes the field's clean step whenever it is assigned; a read-only field
    is not reassignable after creation. *)
Definition setattr (self : t) (name : string) (value : value) : result t :=
  match get_field (cls self) name with
  | None => Raise (AttributeError name)
  | Some f =>
      if Field.is_read_only f then Raise (InvalidInput name value ReadOnly)
      else
        value' ← clean f value;
        Ok (mk (cls self) (<[name := value']> (attrs self)))
  end.

(** Modelled from the spec: construction from keyword-style named field
    values ([EWSElement.__init__] in folders.py).  Every declared field takes
    the keyword value, or else its default, through the field's clean step;
    a field with neither stays unset. *)
Fixpoint init_fields (fields : list Field.t) (kwargs : gmap string value)
    (acc : gmap string value) : result (gmap string value) :=
  match fields with
  | [] => Ok acc
  | f :: rest =>
      match from_option Some (Field.default f) (kwargs !! Field.name f) with
      | Some value =>
          value' ← clean f value;
          init_fields rest kwargs (<[Field.name f := value']> acc)
      | None => init_fields rest kwargs acc
      end
  end.

(** Modelled from the spec: calling a class with keyword arguments, which
    runs the construction above on an instance with no attribute set. *)
Definition new (c : class) (kwargs : gmap string value) : result t :=
  a ← init_fields (FIELDS c) kwargs ∅; Ok (mk c a).

End EWSElement.

(** ** The pattern classes (recurrence.py, lines 82-225)

    Each class is a module: its [ELEMENT_NAME] and [FIELDS] as declared, and,
    where the class defines [__str__], a record [t] of the stored field
    values (integers, as the clean steps leave them) with the rendering. *)

Module AbsoluteYearlyPattern.
Definition ELEMENT_NAME : string := "AbsoluteYearlyRecurrence".
Definition FIELDS : list Field.t :=
  [ EnumField "month" "t:Month" MONTHS None;
    IntegerField "day_of_month" "t:DayOfMonth" (Some 1) (Some 31) ].
Definition class := EWSElement.mk_class ELEMENT_NAME FIELDS.

Record t : Type := mk { month : Z; day_of_month : Z }.

Definition str (self : t) : result string :=
  m ← tuple_getitem MONTHS (month self - 1);
  Ok ("Occurs on the " +:+ str_int (day_of_month self) +:+ ". day of " +:+ m).
End AbsoluteYearlyPattern.

Module RelativeYearlyPattern.
Definition ELEMENT_NAME : string := "RelativeYearlyRecurrence".
Definition FIELDS : list Field.t :=
  [ EnumField "month" "t:Month" MONTHS None;
    EnumField "week_number" "t:DayOfWeekIndex" WEEK_NUMBERS None;
    ExtraWeekdaysField "weekdays" "t:DaysOfWeek" ].
Definition class := EWSElement.mk_class ELEMENT_NAME FIELDS.

Record t : Type := mk { month : Z; week_number : Z; weekdays : list Z }.

Definition str (self : t) : result string :=
  names ← mapM (fun i => tuple_getitem WEEKDAYS (i - 1)) (weekdays self);
  w ← tuple_getitem WEEK_NUMBERS (week_number self - 1);
  m ← tuple_getitem MONTHS (month self - 1);
  Ok ("Occurs on weekdays " +:+ join ", " names +:+ " in the " +:+ w
      +:+ " week of " +:+ m).
End RelativeYearlyPattern.

Module AbsoluteMonthlyPattern.
Definition ELEMENT_NAME : string := "AbsoluteMonthlyRecurrence".
Definition FIELDS : list Field.t :=
  [ IntegerField "interval" "t:Interval" (Some 1) (Some 99);
    IntegerField "day_of_month" "t:DayOfMonth" (Some 1) (Some 31) ].
Definition class := EWSElement.mk_class ELEMENT_NAME FIELDS.

Record t : Type := mk { interval : Z; day_of_month : Z }.

Definition str (self : t) : result string :=
  Ok ("Occurs on the " +:+ str_int (day_of_month self) +:+ ". day of every "
      +:+ str_int (interval self) +:+ ". month").
End AbsoluteMonthlyPattern.

Module RelativeMonthlyPattern.
Definition ELEMENT_NAME : string := "RelativeMonthlyRecurrence".
Definition FIELDS : list Field.t :=
  [ IntegerField "interval" "t:Interval" (Some 1) (Some 99);
    EnumField "week_number" "t:DayOfWeekIndex" WEEK_NUMBERS None;
    ExtraWeekdaysField "weekdays" "t:DaysOfWeek" ].
Definition class := EWSElement.mk_class ELEMENT_NAME FIELDS.

Record t : Type := mk { interval : Z; week_number : Z; weekdays : list Z }.

Definition str (self : t) : result string :=
  names ← mapM (fun i => tuple_getitem WEEKDAYS (i - 1)) (weekdays self);
  w ← tuple_getitem WEEK_NUMBERS (week_number self - 1);
  Ok ("Occurs on weekdays " +:+ join ", " names +:+ " in the " +:+ w
      +:+ " week of every " +:+ str_int (interval self) +:+ ". month").
End RelativeMonthlyPattern.

Module WeeklyPattern.
Definition ELEMENT_NAME : string := "WeeklyRecurrence".
Definition FIELDS : list Field.t :=
  [ IntegerField "interval" "t:Interval" (Some 1) (Some 99);
    EnumListField "weekdays" "t:DaysOfWeek" WEEKDAYS;
    EnumField "first_day_of_week" "t:FirstDayOfWeek" WEEKDAYS (Some (VInt 1)) ].
Definition class := EWSElement.mk_class ELEMENT_NAME FIELDS.

Record t : Type := mk { interval : Z; weekdays : list Z; first_day_of_week : Z }.

Definition str (self : t) : result string :=
  names ← mapM (fun i => tuple_getitem WEEKDAYS (i - 1)) (weekdays self);
  d ← tuple_getitem WEEKDAYS (first_day_of_week self - 1);
  Ok ("Occurs on weekdays " +:+ join ", " names +:+ " of every "
      +:+ str_int (interval self)
      +:+ ". week where the first day of the week is " +:+ d).
End WeeklyPattern.

Module DailyPattern.
Definition ELEMENT_NAME : string := "DailyRecurrence".
Definition FIELDS : list Field.t :=
  [ IntegerField "interval" "t:Interval" (Some 1) (Some 999) ].
Definition class := EWSElement.mk_class ELEMENT_NAME FIELDS.

Record t : Type := mk { interval : Z }.

Definition str (self : t) : result string :=
  Ok ("Occurs every " +:+ str_int (interval self) +:+ ". day").
End DailyPattern.

Module NoEndPattern.
Definition ELEMENT_NAME : string := "NoEndRecurrence".
Definition FIELDS : list Field.t := [ DateField "start" "t:StartDate" ].
Definition class := EWSElement.mk_class ELEMENT_NAME FIELDS.
End NoEndPattern.

Module EndDatePattern.
Definition ELEMENT_NAME : string := "EndDateRecurrence".
Definition FIELDS : list Field.t :=
  [ DateField "start" "t:StartDate"; DateField "end" "t:EndDate" ].
Definition class := EWSElement.mk_class ELEMENT_NAME FIELDS.
End EndDatePattern.

Module NumberedPattern.
Definition ELEMENT_NAME : string := "NumberedRecurrence".
Definition FIELDS : list Field.t :=
  [ DateField "start" "t:StartDate";
    IntegerField "number" "t:NumberOfOccurrences" (Some 0) None ].
Definition class := EWSElement.mk_class ELEMENT_NAME FIELDS.
End NumberedPattern.

(** ** The occurrence classes (recurrence.py, lines 228-265) *)

Module Occurrence.
Definition ELEMENT_NAME : string := "Occurrence".
Definition FIELDS : list Field.t :=
  [ EWSElementField "item" true;
    DateTimeField "start" "t:Start";
    DateTimeField "end" "t:End";
    DateTimeField "original_start" "t:OriginalStart" ].
Definition class := EWSElement.mk_class ELEMENT_NAME FIELDS.
End Occurrence.

Module FirstOccurrence.
Definition ELEMENT_NAME : string := "FirstOccurrence".
Definition FIELDS : list Field.t := Occurrence.FIELDS.
Definition class := EWSElement.mk_class ELEMENT_NAME FIELDS.
End FirstOccurrence.

Module LastOccurrence.
Definition ELEMENT_NAME : string := "LastOccurrence".
Definition FIELDS : list Field.t := Occurrence.FIELDS.
Definition class := EWSElement.mk_class ELEMENT_NAME FIELDS.
End LastOccurrence.

Module DeletedOccurrence.
Definition ELEMENT_NAME : string := "DeletedOccurrence".
Definition FIELDS : list Field.t := [ DateTimeField "start" "t:Start" ].
Definition class := EWSElement.mk_class ELEMENT_NAME FIELDS.
End DeletedOccurrence.

(** ** Specification-side vocabulary lookups

    The specification numbers the members of an enumeration from 1.  These
    two definitions follow its words; the theorems compare the code with
    them. *)

Module Spec.

(** The member at 1-based position [k], if there is one. *)
Definition member_at (enum : list string) (k : Z) : option string :=
  if 1 <=? k then enum !! Z.to_nat (k - 1) else None.

(** The positions [1 .. n] of an enumeration of [n] members. *)
Definition positions (enum : list string) : list Z :=
  (fun i => Z.of_nat i + 1) <$> seq 0 (length enum).

Definition in_1_7 (z : Z) : bool := (1 <=? z) && (z <=? 7).

(** An element of a sequence that must be refused: an integer outside 1..7. *)
Definition out_of_range (v : value) : bool :=
  match v with
  | VInt z => negb (in_1_7 z)
  | _ => false
  end.

(** The text of the refusal, naming the value and the field. *)
Definition range_message (field_name : string) (v : value) : string :=
  "List value '" +:+ str_value v +:+ "' on field '" +:+ field_name
  +:+ "' must be in range 1 -> 7".

End Spec.

(** ** Characters of a rendered text *)

Module Text.

(** Whether the character [c] occurs in [s]. *)
Fixpoint occurs (c : Ascii.ascii) (s : string) : bool :=
  match s with
  | EmptyString => false
  | String a rest => if Ascii.eqb a c then true else occurs c rest
  end.

(** The full stop, character 46, which follows every number in a rendering. *)
Definition full_stop : Ascii.ascii :=
  Ascii.Ascii false true true true false true false false.

End Text.

(** * Properties *)

(** ** The enumeration vocabulary *)

(** C4: the composite Weekdays vocabulary is the 7 weekday names followed by
    the 3 extra options, 10 values in all; the wire index of every member
    ([index + 1]) is its 1-based position, Monday=1 .. Sunday=7, Day=8,
    Weekday=9, WeekendDay=10, and 1-based indexing gives the member back;
    Month has the 12 values January..December and WeekNumber the 5 values
    First..Last, in that order, numbered the same way. *)
Theorem vocabulary_wire_indices :
  WEEKDAYS = ["Monday"; "Tuesday"; "Wednesday"; "Thursday"; "Friday";
              "Saturday"; "Sunday"; "Day"; "Weekday"; "WeekendDay"]
  /\ length WEEKDAYS = 10%nat
  /\ wire_index WEEKDAYS <$> WEEKDAYS = Ok <$> [1; 2; 3; 4; 5; 6; 7; 8; 9; 10]
  /\ Spec.member_at WEEKDAYS <$> Spec.positions WEEKDAYS = Some <$> WEEKDAYS
  /\ MONTHS = ["January"; "February"; "March"; "April"; "May"; "June"; "July";
              "August"; "September"; "October"; "November"; "December"]
  /\ length MONTHS = 12%nat
  /\ wire_index MONTHS <$> MONTHS = Ok <$> Spec.positions MONTHS
  /\ Spec.member_at MONTHS <$> Spec.positions MONTHS = Some <$> MONTHS
  /\ WEEK_NUMBERS = ["First"; "Second"; "Third"; "Fourth"; "Last"]
  /\ length WEEK_NUMBERS = 5%nat
  /\ wire_index WEEK_NUMBERS <$> WEEK_NUMBERS = Ok <$> Spec.positions WEEK_NUMBERS
  /\ Spec.member_at WEEK_NUMBERS <$> Spec.positions WEEK_NUMBERS
     = Some <$> WEEK_NUMBERS.
Proof. repeat split; reflexivity. Qed.

(** ** The result monad *)

Lemma mapM_result_cons {A B} (f : A -> result B) (x : A) (l : list A) :
  mapM f (x :: l) = y ← f x; k ← mapM f l; Ok (y :: k).
Proof. reflexivity. Qed.

Lemma mapM_Ok_Forall2 {A B} (f : A -> result B) (l : list A) (k : list B) :
  Forall2 (fun x y => f x = Ok y) l k -> mapM f l = Ok k.
Proof.
  induction 1 as [|x y l k Hx _ IH]; [done|].
  by rewrite mapM_result_cons, Hx, IH.
Qed.

(** ** The inherited clean steps *)

Lemma IntegerField_clean_bounded (name field_uri : string) (lo hi z : Z) :
  IntegerField_clean (IntegerField name field_uri (Some lo) (Some hi)) (VInt z)
  = if bool_decide (lo <= z <= hi) then Ok (VInt z)
    else Raise (InvalidInput name (VInt z) (InRange (Some lo) (Some hi))).
Proof.
  unfold IntegerField_clean. cbn.
  destruct (Z.ltb_spec z lo), (Z.ltb_spec hi z); cbn;
    case_bool_decide; done || lia.
Qed.

Lemma IntegerField_clean_lower (name field_uri : string) (lo z : Z) :
  IntegerField_clean (IntegerField name field_uri (Some lo) None) (VInt z)
  = if bool_decide (lo <= z) then Ok (VInt z)
    else Raise (InvalidInput name (VInt z) (InRange (Some lo) None)).
Proof.
  unfold IntegerField_clean. cbn.
  destruct (Z.ltb_spec z lo); cbn; case_bool_decide; done || lia.
Qed.

(** ** ExtraWeekdaysField.clean *)

Section ExtraWeekdays.

Variables name field_uri : string.
Let self : Field.t := ExtraWeekdaysField name field_uri.

(** A string that is none of the three categories fails the membership test. *)
Lemma py_in_extra_options (s : string) :
  py_in (VStr s) EXTRA_WEEKDAY_OPTIONS
  = (String.eqb s "Day" || String.eqb s "Weekday" || String.eqb s "WeekendDay").
Proof.
  cbn. by rewrite orb_false_r, orb_assoc.
Qed.

(** The loop raises at the first integer outside 1..7 and otherwise leaves
    the list exactly as it was: the string branch is never entered. *)
Lemma clean_loop_find (items value : list Py.value) (i : nat) :
  clean_loop self value i items
  = match List.find Spec.out_of_range items with
    | Some v => Raise (ValueError (Spec.range_message name v))
    | None => Ok value
    end.
Proof.
  revert i. induction items as [|v rest IH]; intros i; [done|].
  cbn [clean_loop isinstance_string_types List.find].
  destruct v as [|z| | | | |]; cbn [Spec.out_of_range]; try apply IH.
  unfold Spec.in_1_7. destruct (negb _); [done|apply IH].
Qed.

Lemma normalize_sequence (l : list Py.value) :
  normalize self (VList l)
  = match List.find Spec.out_of_range l with
    | Some v => Raise (ValueError (Spec.range_message name v))
    | None => Ok (VList l)
    end.
Proof.
  unfold normalize. cbn. rewrite clean_loop_find.
  by destruct (List.find Spec.out_of_range l).
Qed.

Lemma find_out_of_range_ints (l : list Z) :
  List.find Spec.out_of_range (VInt <$> l)
  = VInt <$> List.find (fun z => negb (Spec.in_1_7 z)) l.
Proof.
  induction l as [|z l IH]; [done|]. cbn.
  destruct (negb (Spec.in_1_7 z)); [done|apply IH].
Qed.

Lemma find_out_of_range_strs (l : list string) :
  List.find Spec.out_of_range (VStr <$> l) = None.
Proof. induction l as [|x l IH]; [done|apply IH]. Qed.

Lemma in_1_7_spec (z : Z) : Spec.in_1_7 z = true <-> 1 <= z <= 7.
Proof. unfold Spec.in_1_7. rewrite andb_true_iff, !Z.leb_le. done. Qed.


(** C1: a single string given to the extra-weekdays clean yields [[8]],
    [[9]] or [[10]] when it is "Day", "Weekday" or "WeekendDay"; any other
    string raises the invalid-input error whose message carries the
    offending value, the field name and the legal category strings. *)
Theorem clean_single_string (s : string) :
  ExtraWeekdaysField_clean self (VStr s)
  = if String.eqb s "Day" then Ok (VList [VInt 8])
    else if String.eqb s "Weekday" then Ok (VList [VInt 9])
    else if String.eqb s "WeekendDay" then Ok (VList [VInt 10])
    else Raise (ValueError ("Single value '" +:+ s +:+ "' on field '" +:+ name
                            +:+ "' must be one of ('Day', 'Weekday', 'WeekendDay')")).
Proof.
  unfold ExtraWeekdaysField_clean, normalize.
  cbn [isinstance_string_types]. rewrite py_in_extra_options.
  destruct (String.eqb_spec s "Day") as [->|_]; [done|].
  destruct (String.eqb_spec s "Weekday") as [->|_]; [done|].
  destruct (String.eqb_spec s "WeekendDay") as [->|_]; [done|].
  reflexivity.
Qed.


(** C3 (what the code does instead): the specialized step hands every
    sequence of strings on exactly as given, neither validating an element
    against the 7 weekday names nor converting it, so a category name inside
    a list is accepted by the whole clean. *)
Theorem string_elements_not_validated (l : list string) :
  normalize self (VList (VStr <$> l)) = Ok (VList (VStr <$> l))
  /\ normalize self (VList [VStr "Funday"]) = Ok (VList [VStr "Funday"])
  /\ normalize self (VList [VStr "Monday"]) = Ok (VList [VStr "Monday"])
  /\ ExtraWeekdaysField_clean self (VList [VStr "Monday"; VStr "Day"])
     = Ok (VList [VInt 1; VInt 8]).
Proof.
  split_and!; try reflexivity.
  by rewrite normalize_sequence, find_out_of_range_strs.
Qed.

(** C10: on a list of integers each in 1..7 the specialized normalization
    step returns the same elements in the same order, so running it twice
    gives what running it once gives. *)
Theorem normalize_idempotent (l : list Z) :
  Forall (fun z => 1 <= z <= 7) l ->
  normalize self (VList (VInt <$> l)) = Ok (VList (VInt <$> l))
  /\ (normalize self (VList (VInt <$> l)) ≫= normalize self)
     = normalize self (VList (VInt <$> l)).
Proof.
  intros Hall.
  assert (normalize self (VList (VInt <$> l)) = Ok (VList (VInt <$> l))) as Hn.
  { rewrite normalize_sequence, find_out_of_range_ints.
    destruct (List.find _ l) as [z|] eqn:Hfind; [|done].
    apply find_some in Hfind as [Hin Hbad]. apply list_elem_of_In in Hin.
    rewrite Forall_forall in Hall. apply Hall, in_1_7_spec in Hin.
    by rewrite Hin in Hbad. }
  split; [done|]. rewrite Hn. cbn [mbind result_bind]. exact Hn.
Qed.

End ExtraWeekdays.

Lemma normalize_idempotent_witness :
  Forall (fun z => 1 <= z <= 7) [1; 3; 5]
  /\ normalize (ExtraWeekdaysField "weekdays" "t:DaysOfWeek")
       (VList [VInt 1; VInt 3; VInt 5]) = Ok (VList [VInt 1; VInt 3; VInt 5]).
Proof.
  assert (Forall (fun z => 1 <= z <= 7) [1; 3; 5]) as H.
  { repeat constructor; lia. }
  split; [exact H|].
  exact (proj1 (normalize_idempotent "weekdays" "t:DaysOfWeek" [1; 3; 5] H)).
Defined.

(** ** Rendering *)

Lemma member_at_is_Some (enum : list string) (k : Z) :
  1 <= k <= Z.of_nat (length enum) -> is_Some (Spec.member_at enum k).
Proof.
  intros [Hlo Hhi]. unfold Spec.member_at.
  rewrite (proj2 (Z.leb_le 1 k) Hlo). apply lookup_lt_is_Some. lia.
Qed.

(** Python's [t[k - 1]] is the 1-based lookup wherever that one is defined. *)
Lemma tuple_getitem_member_at (enum : list string) (k : Z) (x : string) :
  Spec.member_at enum k = Some x ->
  Z.of_nat (length enum) <= maxsize ->
  tuple_getitem enum (k - 1) = Ok x.
Proof.
  unfold Spec.member_at, tuple_getitem, maxsize.
  destruct (Z.leb_spec 1 k) as [Hk|]; [|done]. intros Hx Hfit.
  pose proof (lookup_lt_Some _ _ _ Hx) as Hlen.
  destruct (Z.ltb_spec (k - 1) (- (2 ^ 63 - 1) - 1)); [lia|].
  destruct (Z.ltb_spec (2 ^ 63 - 1) (k - 1)); [lia|]. cbn [orb].
  destruct (Z.ltb_spec (k - 1) 0); [lia|].
  destruct (Z.leb_spec 0 (k - 1)); [|lia].
  destruct (Z.ltb_spec (k - 1) (Z.of_nat (length enum))); [|lia].
  cbn. by rewrite Hx.
Qed.

Lemma weekday_names_of (l : list Z) (names : list string) :
  mapM (Spec.member_at WEEKDAYS) l = Some names ->
  mapM (fun i => tuple_getitem WEEKDAYS (i - 1)) l = Ok names.
Proof.
  intros H%mapM_Some_1. apply mapM_Ok_Forall2.
  eapply Forall2_impl; [exact H|]. intros i n Hn.
  by apply tuple_getitem_member_at.
Qed.

(** C5: for month in 1..12 and day_of_month in 1..31 the rendering of an
    AbsoluteYearlyPattern is exactly "Occurs on the {day_of_month}. day of
    {Month[month]}", the month name looked up 1-based; month 3 and day 15
    give "Occurs on the 15. day of March". *)
Theorem AbsoluteYearlyPattern_str_format (p : AbsoluteYearlyPattern.t) :
  1 <= AbsoluteYearlyPattern.month p <= 12 ->
  1 <= AbsoluteYearlyPattern.day_of_month p <= 31 ->
  (exists m,
      Spec.member_at MONTHS (AbsoluteYearlyPattern.month p) = Some m
      /\ AbsoluteYearlyPattern.str p
         = Ok ("Occurs on the " +:+ str_int (AbsoluteYearlyPattern.day_of_month p)
               +:+ ". day of " +:+ m))
  /\ AbsoluteYearlyPattern.str (AbsoluteYearlyPattern.mk 3 15)
     = Ok "Occurs on the 15. day of March".
Proof.
  intros Hmonth _. split; [|reflexivity].
  destruct (member_at_is_Some MONTHS (AbsoluteYearlyPattern.month p)) as [m Hm];
    [cbn; lia|].
  exists m. split; [done|]. unfold AbsoluteYearlyPattern.str.
  by rewrite (tuple_getitem_member_at _ _ _ Hm) by done.
Qed.

Lemma AbsoluteYearlyPattern_str_format_witness :
  AbsoluteYearlyPattern.str (AbsoluteYearlyPattern.mk 12 31)
  = Ok "Occurs on the 31. day of December".
Proof.
  destruct (AbsoluteYearlyPattern_str_format (AbsoluteYearlyPattern.mk 12 31))
    as [(m & Hm & Hstr) _]; [cbn; lia | cbn; lia |].
  rewrite Hstr. injection Hm as <-. reflexivity.
Defined.

(** C6: for a valid WeeklyPattern (interval in 1..99, weekdays and
    first_day_of_week in the 10-value Weekdays vocabulary) the rendering is
    exactly "Occurs on weekdays {names} of every {interval}. week where the
    first day of the week is {Weekdays[first_day_of_week]}", the names being
    the 1-based Weekdays lookups of the weekdays list joined by a comma and a
    space; interval 2, weekdays [1, 3], first day 1 give "Occurs on weekdays
    Monday, Wednesday of every 2. week where the first day of the week is
    Monday". *)
Theorem WeeklyPattern_str_format (p : WeeklyPattern.t) :
  1 <= WeeklyPattern.interval p <= 99 ->
  Forall (fun i => 1 <= i <= 10) (WeeklyPattern.weekdays p) ->
  1 <= WeeklyPattern.first_day_of_week p <= 10 ->
  (exists names d,
      mapM (Spec.member_at WEEKDAYS) (WeeklyPattern.weekdays p) = Some names
      /\ Spec.member_at WEEKDAYS (WeeklyPattern.first_day_of_week p) = Some d
      /\ WeeklyPattern.str p
         = Ok ("Occurs on weekdays " +:+ join ", " names +:+ " of every "
               +:+ str_int (WeeklyPattern.interval p)
               +:+ ". week where the first day of the week is " +:+ d))
  /\ WeeklyPattern.str (WeeklyPattern.mk 2 [1; 3] 1)
     = Ok "Occurs on weekdays Monday, Wednesday of every 2. week where the first day of the week is Monday".
Proof.
  intros _ Hdays Hfirst. split; [|reflexivity].
  destruct (mapM (Spec.member_at WEEKDAYS) (WeeklyPattern.weekdays p))
    as [names|] eqn:Hnames.
  - destruct (member_at_is_Some WEEKDAYS (WeeklyPattern.first_day_of_week p))
      as [d Hd]; [cbn; lia|].
    exists names, d. split_and!; [done..|]. unfold WeeklyPattern.str.
    rewrite (weekday_names_of _ _ Hnames). cbn [mbind result_bind].
    by rewrite (tuple_getitem_member_at _ _ _ Hd) by done.
  - exfalso. apply mapM_None_1, Exists_exists in Hnames as (i & Hi & Hnone).
    rewrite Forall_forall in Hdays. specialize (Hdays i Hi).
    destruct (member_at_is_Some WEEKDAYS i) as [n Hn]; [cbn; lia|]. congruence.
Qed.

Lemma WeeklyPattern_str_format_witness :
  WeeklyPattern.str (WeeklyPattern.mk 99 [7; 10] 10)
  = Ok "Occurs on weekdays Sunday, WeekendDay of every 99. week where the first day of the week is WeekendDay".
Proof.
  destruct (WeeklyPattern_str_format (WeeklyPattern.mk 99 [7; 10] 10))
    as [(names & d & Hnames & Hd & Hstr) _];
    [cbn; lia | repeat constructor; lia | cbn; lia |].
  rewrite Hstr. injection Hnames as <-. injection Hd as <-. reflexivity.
Defined.

(** ** Assignment and construction *)

Lemma new_cls (c : EWSElement.class) (kwargs : gmap string value) (o : EWSElement.t) :
  EWSElement.new c kwargs = Ok o -> EWSElement.cls o = c.
Proof.
  unfold EWSElement.new. destruct (EWSElement.init_fields _ _ _); [|done].
  by intros [= <-].
Qed.

(** C7: assigning an interval to a DailyPattern succeeds exactly for 1..999
    and to an AbsoluteMonthlyPattern exactly for 1..99; outside the range the
    assignment itself raises the invalid-input error.  1000 and 100 fail, 999
    and 99 succeed, at assignment and at construction. *)
Theorem interval_bounds (a : gmap string value) (z : Z) :
  EWSElement.setattr (EWSElement.mk DailyPattern.class a) "interval" (VInt z)
  = (if bool_decide (1 <= z <= 999)
     then Ok (EWSElement.mk DailyPattern.class (<["interval" := VInt z]> a))
     else Raise (InvalidInput "interval" (VInt z) (InRange (Some 1) (Some 999))))
  /\ EWSElement.setattr (EWSElement.mk AbsoluteMonthlyPattern.class a) "interval" (VInt z)
     = (if bool_decide (1 <= z <= 99)
        then Ok (EWSElement.mk AbsoluteMonthlyPattern.class (<["interval" := VInt z]> a))
        else Raise (InvalidInput "interval" (VInt z) (InRange (Some 1) (Some 99))))
  /\ raises_invalid_input
       (EWSElement.setattr (EWSElement.mk DailyPattern.class a) "interval" (VInt 1000))
  /\ EWSElement.setattr (EWSElement.mk DailyPattern.class a) "interval" (VInt 999)
     = Ok (EWSElement.mk DailyPattern.class (<["interval" := VInt 999]> a))
  /\ raises_invalid_input
       (EWSElement.setattr (EWSElement.mk AbsoluteMonthlyPattern.class a)
          "interval" (VInt 100))
  /\ EWSElement.setattr (EWSElement.mk AbsoluteMonthlyPattern.class a) "interval" (VInt 99)
     = Ok (EWSElement.mk AbsoluteMonthlyPattern.class (<["interval" := VInt 99]> a))
  /\ raises_invalid_input
       (EWSElement.new DailyPattern.class {[ "interval" := VInt 1000 ]})
  /\ EWSElement.new DailyPattern.class {[ "interval" := VInt 999 ]}
     = Ok (EWSElement.mk DailyPattern.class {[ "interval" := VInt 999 ]})
  /\ raises_invalid_input
       (EWSElement.new AbsoluteMonthlyPattern.class {[ "interval" := VInt 100 ]})
  /\ EWSElement.new AbsoluteMonthlyPattern.class {[ "interval" := VInt 99 ]}
     = Ok (EWSElement.mk AbsoluteMonthlyPattern.class {[ "interval" := VInt 99 ]}).
Proof.
  split_and!; try reflexivity.
  - unfold EWSElement.setattr. cbn -[IntegerField_clean].
    rewrite IntegerField_clean_bounded. by case_bool_decide.
  - unfold EWSElement.setattr. cbn -[IntegerField_clean].
    rewrite IntegerField_clean_bounded. by case_bool_decide.
Qed.

(** C8: the number of a NumberedPattern has lower bound 0 and no upper
    bound: assigning or constructing with a negative number raises the
    invalid-input error, while 0 and every larger number are accepted. *)
Theorem number_lower_bound (a : gmap string value) (d z : Z) :
  EWSElement.setattr (EWSElement.mk NumberedPattern.class a) "number" (VInt z)
  = (if bool_decide (0 <= z)
     then Ok (EWSElement.mk NumberedPattern.class (<["number" := VInt z]> a))
     else Raise (InvalidInput "number" (VInt z) (InRange (Some 0) None)))
  /\ EWSElement.new NumberedPattern.class {[ "start" := VDate d; "number" := VInt z ]}
     = (if bool_decide (0 <= z)
        then Ok (EWSElement.mk NumberedPattern.class
                   {[ "start" := VDate d; "number" := VInt z ]})
        else Raise (InvalidInput "number" (VInt z) (InRange (Some 0) None)))
  /\ raises_invalid_input
       (EWSElement.new NumberedPattern.class
          {[ "start" := VDate d; "number" := VInt (-1) ]})
  /\ EWSElement.new NumberedPattern.class {[ "start" := VDate d; "number" := VInt 0 ]}
     = Ok (EWSElement.mk NumberedPattern.class
             {[ "start" := VDate d; "number" := VInt 0 ]}).
Proof.
  split_and!; try reflexivity.
  - unfold EWSElement.setattr. cbn -[IntegerField_clean].
    rewrite IntegerField_clean_lower. by case_bool_decide.
  - unfold EWSElement.new, NumberedPattern.class, NumberedPattern.FIELDS.
    cbn [EWSElement.FIELDS EWSElement.init_fields].
    change (({[ "start" := VDate d; "number" := VInt z ]} : gmap string value)
              !! Field.name (DateField "start" "t:StartDate"))
      with (Some (VDate d)).
    change (({[ "start" := VDate d; "number" := VInt z ]} : gmap string value)
              !! Field.name (IntegerField "number" "t:NumberOfOccurrences" (Some 0) None))
      with (Some (VInt z)).
    cbn -[IntegerField_clean insert singletonM].
    rewrite IntegerField_clean_lower. case_bool_decide; reflexivity.
Qed.

(** C9: on every constructed Occurrence, reassigning [item] fails because
    the field is read-only, while assigning a date-time to [start], [end] or
    [original_start] succeeds, stores it, and leaves [item] and every other
    attribute as it was. *)
Theorem Occurrence_item_read_only (kwargs : gmap string value)
    (o : EWSElement.t) (f : string) (t : Z) :
  EWSElement.new Occurrence.class kwargs = Ok o ->
  f ∈ ["start"; "end"; "original_start"] ->
  (forall v, EWSElement.setattr o "item" v = Raise (InvalidInput "item" v ReadOnly))
  /\ exists o',
      EWSElement.setattr o f (VDateTime t) = Ok o'
      /\ EWSElement.getattr o' f = Some (VDateTime t)
      /\ EWSElement.getattr o' "item" = EWSElement.getattr o "item"
      /\ forall g, g ≠ f -> EWSElement.getattr o' g = EWSElement.getattr o g.
Proof.
  intros Hnew Hf. apply new_cls in Hnew. destruct o as [c a]. cbn in Hnew. subst c.
  split; [done|].
  exists (EWSElement.mk Occurrence.class (<[f := VDateTime t]> a)).
  unfold EWSElement.getattr. cbn [EWSElement.attrs].
  apply list_elem_of_In in Hf. cbn in Hf.
  destruct Hf as [<-|[<-|[<-|[]]]];
    (split_and!;
     [ reflexivity
     | apply lookup_insert_eq
     | by apply lookup_insert_ne
     | intros g Hg; by apply lookup_insert_ne ]).
Qed.

Lemma Occurrence_item_read_only_witness :
  (EWSElement.new Occurrence.class
     {[ "item" := VItemId "AAMk" "CQAA"; "start" := VDateTime 1500000000 ]}
   ≫= fun o => EWSElement.setattr o "item" (VItemId "BBMk" "DQAA"))
  = Raise (InvalidInput "item" (VItemId "BBMk" "DQAA") ReadOnly).
Proof.
  destruct (EWSElement.new Occurrence.class
              {[ "item" := VItemId "AAMk" "CQAA"; "start" := VDateTime 1500000000 ]})
    as [o|e] eqn:Hnew; [|vm_compute in Hnew; discriminate].
  cbn [mbind result_bind].
  apply (Occurrence_item_read_only _ o "end" 1500003600 Hnew).
  apply list_elem_of_further, list_elem_of_here.
Defined.

(** * Further properties of the code *)

(** ** The specialized step of ExtraWeekdaysField.clean on any input *)

Lemma out_of_range_true (v : value) :
  Spec.out_of_range v = true <-> exists z, v = VInt z /\ ~ 1 <= z <= 7.
Proof.
  destruct v as [|z| | | | |]; cbn; try (split; [done|intros (? & ? & ?); done]).
  rewrite negb_true_iff, <- not_true_iff_false, in_1_7_spec.
  split; [eauto|]. by intros (? & [= <-] & ?).
Qed.

Lemma out_of_range_false (v : value) :
  Spec.out_of_range v = false <-> forall z, v = VInt z -> 1 <= z <= 7.
Proof.
  rewrite <- not_true_iff_false, out_of_range_true. split.
  - intros Hno z ->. destruct (decide (1 <= z <= 7)); [done|].
    exfalso. apply Hno. eauto.
  - intros Hall (z & -> & Hz). by apply Hz, Hall.
Qed.

Lemma find_out_of_range_None (l : list value) :
  List.find Spec.out_of_range l = None
  <-> Forall (fun v => forall z, v = VInt z -> 1 <= z <= 7) l.
Proof.
  rewrite Forall_forall. split.
  - intros Hnone v Hv%list_elem_of_In.
    apply out_of_range_false, (find_none _ _ Hnone v Hv).
  - intros Hall. destruct (List.find Spec.out_of_range l) as [v|] eqn:Hfind; [|done].
    apply find_some in Hfind as [Hv%list_elem_of_In Hbad].
    pose proof (proj2 (out_of_range_false v) (Hall v Hv)). congruence.
Qed.

Section ExtraWeekdaysSteps.

Variables name field_uri : string.
Let self : Field.t := ExtraWeekdaysField name field_uri.

(** X1: on a sequence of any elements the specialized step never changes
    anything: when it returns, it returns the sequence it was given, and it
    raises exactly when some element is an integer outside 1..7. *)
Theorem normalize_sequence_kept_or_refused (l : list value) :
  match normalize self (VList l) with
  | Ok w => w = VList l
              /\ Forall (fun v => forall z, v = VInt z -> 1 <= z <= 7) l
  | Raise e => (exists msg, e = ValueError msg)
               /\ Exists (fun v => exists z, v = VInt z /\ ~ 1 <= z <= 7) l
  end.
Proof.
  rewrite (normalize_sequence name field_uri).
  destruct (List.find Spec.out_of_range l) as [v|] eqn:Hfind.
  - split; [eauto|]. apply find_some in Hfind as [Hv%list_elem_of_In Hbad].
    apply Exists_exists. exists v. split; [done|]. by apply out_of_range_true.
  - split; [done|]. by apply find_out_of_range_None.
Qed.

(** X2: the error of a refused sequence names the first integer outside
    1..7, whatever stands before or after it. *)
Theorem normalize_names_first_offender (pre post : list value) (z : Z) :
  Forall (fun v => forall y, v = VInt y -> 1 <= y <= 7) pre ->
  ~ 1 <= z <= 7 ->
  normalize self (VList (pre ++ VInt z :: post))
  = Raise (ValueError ("List value '" +:+ str_int z +:+ "' on field '" +:+ name
                       +:+ "' must be in range 1 -> 7")).
Proof.
  intros Hpre Hz. rewrite (normalize_sequence name field_uri).
  assert (List.find Spec.out_of_range (pre ++ VInt z :: post) = Some (VInt z))
    as ->; [|done].
  induction Hpre as [|v pre Hv _ IH]; cbn.
  - assert (Spec.in_1_7 z = false) as ->; [|done].
    apply not_true_iff_false. by rewrite in_1_7_spec.
  - apply out_of_range_false in Hv. by rewrite Hv.
Qed.

(** X3: a single integer outside 1..7 is wrapped into a one-element list
    without any check, while the same integer inside a one-element list is
    refused. *)
Theorem scalar_passes_where_singleton_fails (z : Z) :
  ~ 1 <= z <= 7 ->
  normalize self (VInt z) = Ok (VList [VInt z])
  /\ normalize self (VList [VInt z])
     = Raise (ValueError ("List value '" +:+ str_int z +:+ "' on field '" +:+ name
                          +:+ "' must be in range 1 -> 7")).
Proof.
  intros Hz. split; [done|].
  rewrite (normalize_sequence name field_uri). cbn.
  assert (Spec.in_1_7 z = false) as ->; [|done].
  apply not_true_iff_false. by rewrite in_1_7_spec.
Qed.

(** X4: what the step returns for a category name is refused when it is
    given to the step again: the result is a one-element list holding 8, 9
    or 10, and the list path allows 1..7 only. *)
Theorem normalize_category_not_stable (s : string) (w : value) :
  normalize self (VStr s) = Ok w ->
  exists k, 8 <= k <= 10 /\ w = VList [VInt k]
    /\ normalize self w
       = Raise (ValueError ("List value '" +:+ str_int k +:+ "' on field '" +:+ name
                            +:+ "' must be in range 1 -> 7")).
Proof.
  unfold normalize at 1. cbn [isinstance_string_types].
  rewrite py_in_extra_options.
  destruct (String.eqb_spec s "Day") as [->|_];
    [intros [= <-]; exists 8; split_and!; done || lia|].
  destruct (String.eqb_spec s "Weekday") as [->|_];
    [intros [= <-]; exists 9; split_and!; done || lia|].
  destruct (String.eqb_spec s "WeekendDay") as [->|_];
    [intros [= <-]; exists 10; split_and!; done || lia|].
  done.
Qed.

(** X5: on sequences the step is idempotent: a sequence it returns is
    returned again unchanged. *)
Theorem normalize_sequence_idempotent (l : list value) (w : value) :
  normalize self (VList l) = Ok w -> normalize self w = Ok w.
Proof.
  rewrite (normalize_sequence name field_uri).
  destruct (List.find Spec.out_of_range l) eqn:Hfind; [done|].
  intros [= <-]. by rewrite (normalize_sequence name field_uri), Hfind.
Qed.

(** X6: every outcome of the step: a returned value is always a list (of
    one element for a single string or integer); a [ValueError] comes from a
    string or a sequence only; a [TypeError] comes exactly from a value that
    is neither string, integer nor sequence; nothing else is raised. *)
Theorem normalize_outcomes (v : value) :
  match normalize self v with
  | Ok w =>
      match v with
      | VStr _ | VInt _ => exists x, w = VList [x]
      | VList l => w = VList l
      | _ => False
      end
  | Raise (ValueError _) =>
      match v with VStr _ | VList _ => True | _ => False end
  | Raise (TypeError _) =>
      match v with VNone | VDate _ | VDateTime _ | VItemId _ _ => True | _ => False end
  | Raise _ => False
  end.
Proof.
  destruct v as [|z|s|l| | |]; try done.
  - cbn. eauto.
  - unfold normalize. cbn [isinstance_string_types]. rewrite py_in_extra_options.
    destruct (String.eqb_spec s "Day") as [->|_]; [cbn; eauto|].
    destruct (String.eqb_spec s "Weekday") as [->|_]; [cbn; eauto|].
    destruct (String.eqb_spec s "WeekendDay") as [->|_]; [cbn; eauto|].
    done.
  - rewrite (normalize_sequence name field_uri).
    by destruct (List.find Spec.out_of_range l).
Qed.

(** X7: a category name survives the round trip through its wire index: the
    step turns it into the index at which the renderings' lookup
    [WEEKDAYS[k - 1]] finds the same name. *)
Theorem category_index_round_trip (s : string) (k : Z) :
  normalize self (VStr s) = Ok (VList [VInt k]) ->
  tuple_getitem WEEKDAYS (k - 1) = Ok s.
Proof.
  unfold normalize. cbn [isinstance_string_types]. rewrite py_in_extra_options.
  destruct (String.eqb_spec s "Day") as [->|_]; [by intros [= <-]|].
  destruct (String.eqb_spec s "Weekday") as [->|_]; [by intros [= <-]|].
  destruct (String.eqb_spec s "WeekendDay") as [->|_]; [by intros [= <-]|].
  done.
Qed.

(** X8: a sequence of integers that the step lets through renders without
    error, and every rendered name is one of the 7 weekday names. *)
Theorem accepted_integers_render_as_weekday_names (l : list Z) (w : value) :
  normalize self (VList (VInt <$> l)) = Ok w ->
  exists names,
    mapM (fun i => tuple_getitem WEEKDAYS (i - 1)) l = Ok names
    /\ length names = length l
    /\ Forall (fun n => n ∈ WEEKDAY_NAMES) names.
Proof.
  rewrite (normalize_sequence name field_uri), find_out_of_range_ints.
  destruct (List.find _ l) as [z|] eqn:Hfind; [done|]. intros _.
  assert (Forall (fun z => 1 <= z <= 7) l) as Hall.
  { apply Forall_forall. intros z Hz%list_elem_of_In.
    apply in_1_7_spec, negb_false_iff, (find_none _ _ Hfind z Hz). }
  clear Hfind. induction Hall as [|z l Hz _ (names & Hnames & Hlen & Hin)].
  - exists []. by split_and!.
  - assert (exists n, tuple_getitem WEEKDAYS (z - 1) = Ok n /\ n ∈ WEEKDAY_NAMES)
      as (n & Hn & Hmem).
    { assert (z = 1 \/ z = 2 \/ z = 3 \/ z = 4 \/ z = 5 \/ z = 6 \/ z = 7)
        as Hcases by lia.
      destruct_or! Hcases; subst z; eexists; (split; [reflexivity|]);
        apply list_elem_of_In; vm_compute; tauto. }
    exists (n :: names). rewrite mapM_result_cons, Hn, Hnames. cbn.
    split_and!; [done|by rewrite Hlen|by constructor].
Qed.

End ExtraWeekdaysSteps.

Lemma normalize_names_first_offender_witness :
  normalize (ExtraWeekdaysField "weekdays" "t:DaysOfWeek")
    (VList ([VStr "Funday"; VInt 2] ++ VInt 0 :: [VInt 9]))
  = Raise (ValueError "List value '0' on field 'weekdays' must be in range 1 -> 7").
Proof.
  apply (normalize_names_first_offender "weekdays" "t:DaysOfWeek"
           [VStr "Funday"; VInt 2] [VInt 9] 0).
  - constructor; [intros y [=]|]. constructor; [intros y [= <-]; lia|]. constructor.
  - lia.
Defined.

Lemma scalar_passes_where_singleton_fails_witness :
  normalize (ExtraWeekdaysField "weekdays" "t:DaysOfWeek") (VInt 8)
  = Ok (VList [VInt 8])
  /\ normalize (ExtraWeekdaysField "weekdays" "t:DaysOfWeek") (VList [VInt 8])
     = Raise (ValueError "List value '8' on field 'weekdays' must be in range 1 -> 7").
Proof.
  apply (scalar_passes_where_singleton_fails "weekdays" "t:DaysOfWeek" 8). lia.
Defined.

Lemma normalize_category_not_stable_witness :
  exists k, 8 <= k <= 10 /\ VList [VInt 8] = VList [VInt k]
    /\ normalize (ExtraWeekdaysField "weekdays" "t:DaysOfWeek") (VList [VInt 8])
       = Raise (ValueError ("List value '" +:+ str_int k
                            +:+ "' on field 'weekdays' must be in range 1 -> 7")).
Proof.
  exact (normalize_category_not_stable "weekdays" "t:DaysOfWeek" "Day"
           (VList [VInt 8]) eq_refl).
Defined.

Lemma normalize_sequence_idempotent_witness :
  normalize (ExtraWeekdaysField "weekdays" "t:DaysOfWeek")
    (VList [VInt 1; VStr "Monday"; VNone])
  = Ok (VList [VInt 1; VStr "Monday"; VNone]).
Proof.
  exact (normalize_sequence_idempotent "weekdays" "t:DaysOfWeek"
           [VInt 1; VStr "Monday"; VNone] _ eq_refl).
Defined.

Lemma category_index_round_trip_witness :
  tuple_getitem WEEKDAYS (10 - 1) = Ok "WeekendDay".
Proof.
  exact (category_index_round_trip "weekdays" "t:DaysOfWeek" "WeekendDay" 10 eq_refl).
Defined.

Lemma accepted_integers_render_as_weekday_names_witness :
  exists names,
    mapM (fun i => tuple_getitem WEEKDAYS (i - 1)) [7; 1; 1] = Ok names
    /\ length names = length [7; 1; 1]
    /\ Forall (fun n => n ∈ WEEKDAY_NAMES) names.
Proof.
  exact (accepted_integers_render_as_weekday_names "weekdays" "t:DaysOfWeek"
           [7; 1; 1] _ eq_refl).
Defined.

(** ** Python indexing in the renderings *)

Lemma tuple_getitem_Raise {A} (t : list A) (k : Z) (e : exn) :
  tuple_getitem t k = Raise e -> exists msg, e = IndexError msg.
Proof.
  unfold tuple_getitem. destruct (_ || _); [intros [= <-]; eauto|].
  cbv zeta. destruct (_ && _); [|intros [= <-]; eauto].
  destruct (t !! _); [done|intros [= <-]; eauto].
Qed.

Lemma tuple_getitem_cases {A} (t : list A) (k : Z) :
  let n := Z.of_nat (length t) in
  n <= maxsize ->
  (- n <= k < n /\ exists x, tuple_getitem t k = Ok x)
  \/ (~ - n <= k < n /\ exists msg, tuple_getitem t k = Raise (IndexError msg)).
Proof.
  intros n Hfit. unfold tuple_getitem, maxsize in *. fold n.
  destruct (Z.ltb_spec k (- (2 ^ 63 - 1) - 1)); [right; split; [lia|eauto]|].
  destruct (Z.ltb_spec (2 ^ 63 - 1) k); [right; split; [lia|eauto]|].
  cbn [orb].
  destruct (Z.ltb_spec k 0) as [Hneg|Hpos].
  - destruct (Z.leb_spec 0 (k + n)), (Z.ltb_spec (k + n) n); cbn;
      try (right; split; [lia|eauto]).
    left. split; [lia|].
    destruct (lookup_lt_is_Some_2 t (Z.to_nat (k + n))) as [x ->]; [lia|eauto].
  - destruct (Z.leb_spec 0 k), (Z.ltb_spec k n); cbn;
      try (right; split; [lia|eauto]).
    left. split; [lia|].
    destruct (lookup_lt_is_Some_2 t (Z.to_nat k)) as [x ->]; [lia|eauto].
Qed.

Lemma tuple_getitem_Ok_iff {A} (t : list A) (k : Z) :
  Z.of_nat (length t) <= maxsize ->
  (exists x, tuple_getitem t k = Ok x)
  <-> - Z.of_nat (length t) <= k < Z.of_nat (length t).
Proof.
  intros Hfit.
  destruct (tuple_getitem_cases t k Hfit) as [[Hk Hx]|[Hk [msg Hx]]]; [done|].
  rewrite Hx. split; [by intros [? ?]|done].
Qed.

Lemma tuple_getitem_wrap {A} (t : list A) (k : Z) :
  Z.of_nat (length t) <= maxsize ->
  - Z.of_nat (length t) <= k < 0 ->
  tuple_getitem t k = tuple_getitem t (k + Z.of_nat (length t)).
Proof.
  intros Hfit Hk. unfold tuple_getitem, maxsize in *.
  destruct (Z.ltb_spec k (- (2 ^ 63 - 1) - 1)); [lia|].
  destruct (Z.ltb_spec (2 ^ 63 - 1) k); [lia|].
  destruct (Z.ltb_spec (k + Z.of_nat (length t)) (- (2 ^ 63 - 1) - 1)); [lia|].
  destruct (Z.ltb_spec (2 ^ 63 - 1) (k + Z.of_nat (length t))); [lia|].
  cbn [orb].
  destruct (Z.ltb_spec k 0); [|lia].
  destruct (Z.ltb_spec (k + Z.of_nat (length t)) 0); [lia|done].
Qed.

Lemma mapM_result_cases {A B} (f : A -> result B) (l : list A) :
  (exists k, mapM f l = Ok k /\ Forall2 (fun x y => f x = Ok y) l k)
  \/ (exists x e, x ∈ l /\ f x = Raise e /\ mapM f l = Raise e).
Proof.
  induction l as [|x l IH].
  - left. exists []. by split.
  - rewrite mapM_result_cons. destruct (f x) as [y|e] eqn:Hx.
    + destruct IH as [(k & -> & Hk)|(x' & e & Hin & Hx' & ->)].
      * left. exists (y :: k). split; [done|by constructor].
      * right. exists x', e. split_and!; [by constructor|done..].
    + right. exists x, e. split_and!; [by constructor|done..].
Qed.

(** The weekday names of a rendering: present exactly when every index is
    inside Python's window for a 10-tuple, an [IndexError] otherwise. *)
Lemma weekday_names_cases (l : list Z) :
  (Forall (fun i => -9 <= i <= 10) l
   /\ exists names, mapM (fun i => tuple_getitem WEEKDAYS (i - 1)) l = Ok names)
  \/ (~ Forall (fun i => -9 <= i <= 10) l
      /\ exists msg, mapM (fun i => tuple_getitem WEEKDAYS (i - 1)) l
                     = Raise (IndexError msg)).
Proof.
  destruct (mapM_result_cases (fun i => tuple_getitem WEEKDAYS (i - 1)) l)
    as [(names & Hnames & Hall)|(i & e & Hin & Hi & Hraise)].
  - left. split; [|eauto]. clear Hnames.
    induction Hall as [|i n l names Hi _ IH]; constructor; [|done].
    assert (- Z.of_nat (length WEEKDAYS) <= i - 1 < Z.of_nat (length WEEKDAYS)) as Hw
      by (apply tuple_getitem_Ok_iff; [done|eauto]).
    cbn in Hw. lia.
  - right. destruct (tuple_getitem_Raise _ _ _ Hi) as [msg ->]. split; [|eauto].
    intros Hall. rewrite Forall_forall in Hall. specialize (Hall i Hin).
    assert (exists x, tuple_getitem WEEKDAYS (i - 1) = Ok x) as [x Hx].
    { apply tuple_getitem_Ok_iff; [done|]. cbn. lia. }
    congruence.
Qed.

(** Case analysis on one lookup of a rendering: the index is inside the
    window of the tuple and the lookup returns, or it is outside and the
    lookup raises. *)
Ltac lookup_cases t k :=
  let Hin := fresh "Hin" in
  let Hres := fresh "Hres" in
  let x := fresh "x" in
  destruct (tuple_getitem_cases t k) as [[Hin [x Hres]]|[Hin [x Hres]]];
  [done| |]; cbn in Hin; rewrite Hres; cbn [mbind result_bind].

Ltac names_cases l :=
  let Hin := fresh "Hin" in
  let Hres := fresh "Hres" in
  let names := fresh "names" in
  destruct (weekday_names_cases l) as [[Hin [names Hres]]|[Hin [names Hres]]];
  rewrite Hres; cbn [mbind result_bind].

(** ** Renderings outside the declared ranges *)

(** X9: the rendering of an AbsoluteYearlyPattern returns exactly when month
    is in -11..12 and raises [IndexError] otherwise; a month in -11..0 is
    read from the end of the tuple, so it renders as month + 12 does and
    month 0 renders as December. *)
Theorem AbsoluteYearlyPattern_str_window (p : AbsoluteYearlyPattern.t) :
  ((exists s, AbsoluteYearlyPattern.str p = Ok s)
   <-> -11 <= AbsoluteYearlyPattern.month p <= 12)
  /\ (forall e, AbsoluteYearlyPattern.str p = Raise e ->
      exists msg, e = IndexError msg)
  /\ (-11 <= AbsoluteYearlyPattern.month p <= 0 ->
      AbsoluteYearlyPattern.str p
      = AbsoluteYearlyPattern.str
          (AbsoluteYearlyPattern.mk (AbsoluteYearlyPattern.month p + 12)
             (AbsoluteYearlyPattern.day_of_month p)))
  /\ AbsoluteYearlyPattern.str
       (AbsoluteYearlyPattern.mk 0 (AbsoluteYearlyPattern.day_of_month p))
     = Ok ("Occurs on the " +:+ str_int (AbsoluteYearlyPattern.day_of_month p)
           +:+ ". day of December").
Proof.
  destruct p as [month dom]. unfold AbsoluteYearlyPattern.str. cbn.
  split_and!.
  - lookup_cases MONTHS (month - 1).
    + split; [lia|eauto].
    + split; [by intros [? ?]|lia].
  - lookup_cases MONTHS (month - 1); [done|intros e [= <-]; eauto].
  - intros Hm. rewrite (tuple_getitem_wrap MONTHS (month - 1)); [|done|cbn; lia].
    do 2 f_equal. cbn. lia.
  - reflexivity.
Qed.

(** X10: the rendering of a WeeklyPattern returns exactly when every weekday
    and the first day of the week are in -9..10, and raises [IndexError]
    otherwise; the interval plays no part. *)
Theorem WeeklyPattern_str_window (p : WeeklyPattern.t) :
  ((exists s, WeeklyPattern.str p = Ok s)
   <-> Forall (fun i => -9 <= i <= 10) (WeeklyPattern.weekdays p)
       /\ -9 <= WeeklyPattern.first_day_of_week p <= 10)
  /\ (forall e, WeeklyPattern.str p = Raise e ->
      exists msg, e = IndexError msg).
Proof.
  destruct p as [interval weekdays first]. unfold WeeklyPattern.str.
  cbn [WeeklyPattern.weekdays WeeklyPattern.interval WeeklyPattern.first_day_of_week].
  names_cases weekdays; [lookup_cases WEEKDAYS (first - 1)|].
  - split; [split; [intros _; split; [done|lia]|eauto]|done].
  - split; [split; [by intros [? ?]|intros [_ ?]; lia]|intros e [= <-]; eauto].
  - split; [split; [by intros [? ?]|by intros [? _]]|intros e [= <-]; eauto].
Qed.

(** X11: for month in 1..12, week_number in 1..5 and weekdays in 1..10 the
    rendering of a RelativeYearlyPattern is exactly "Occurs on weekdays
    {names} in the {WeekNumber[week_number]} week of {Month[month]}", all
    lookups 1-based and the names joined by a comma and a space. *)
Theorem RelativeYearlyPattern_str_format (p : RelativeYearlyPattern.t) :
  1 <= RelativeYearlyPattern.month p <= 12 ->
  1 <= RelativeYearlyPattern.week_number p <= 5 ->
  Forall (fun i => 1 <= i <= 10) (RelativeYearlyPattern.weekdays p) ->
  exists names w m,
    mapM (Spec.member_at WEEKDAYS) (RelativeYearlyPattern.weekdays p) = Some names
    /\ Spec.member_at WEEK_NUMBERS (RelativeYearlyPattern.week_number p) = Some w
    /\ Spec.member_at MONTHS (RelativeYearlyPattern.month p) = Some m
    /\ RelativeYearlyPattern.str p
       = Ok ("Occurs on weekdays " +:+ join ", " names +:+ " in the " +:+ w
             +:+ " week of " +:+ m).
Proof.
  intros Hmonth Hweek Hdays.
  destruct (mapM (Spec.member_at WEEKDAYS) (RelativeYearlyPattern.weekdays p))
    as [names|] eqn:Hnames.
  - destruct (member_at_is_Some WEEK_NUMBERS (RelativeYearlyPattern.week_number p))
      as [w Hw]; [cbn; lia|].
    destruct (member_at_is_Some MONTHS (RelativeYearlyPattern.month p))
      as [m Hm]; [cbn; lia|].
    exists names, w, m. split_and!; [done..|]. unfold RelativeYearlyPattern.str.
    rewrite (weekday_names_of _ _ Hnames). cbn [mbind result_bind].
    rewrite (tuple_getitem_member_at _ _ _ Hw) by done. cbn [mbind result_bind].
    by rewrite (tuple_getitem_member_at _ _ _ Hm) by done.
  - exfalso. apply mapM_None_1, Exists_exists in Hnames as (i & Hi & Hnone).
    rewrite Forall_forall in Hdays. specialize (Hdays i Hi).
    destruct (member_at_is_Some WEEKDAYS i) as [n Hn]; [cbn; lia|]. congruence.
Qed.

Lemma RelativeYearlyPattern_str_format_witness :
  RelativeYearlyPattern.str (RelativeYearlyPattern.mk 3 1 [10])
  = Ok "Occurs on weekdays WeekendDay in the First week of March".
Proof.
  destruct (RelativeYearlyPattern_str_format (RelativeYearlyPattern.mk 3 1 [10]))
    as (names & w & m & Hnames & Hw & Hm & Hstr);
    [cbn; lia | cbn; lia | repeat constructor; lia |].
  rewrite Hstr. injection Hnames as <-. injection Hw as <-. injection Hm as <-.
  reflexivity.
Defined.

(** X12: the rendering of a RelativeYearlyPattern returns exactly when every
    weekday is in -9..10, week_number in -4..5 and month in -11..12, and
    raises [IndexError] otherwise. *)
Theorem RelativeYearlyPattern_str_window (p : RelativeYearlyPattern.t) :
  ((exists s, RelativeYearlyPattern.str p = Ok s)
   <-> Forall (fun i => -9 <= i <= 10) (RelativeYearlyPattern.weekdays p)
       /\ -4 <= RelativeYearlyPattern.week_number p <= 5
       /\ -11 <= RelativeYearlyPattern.month p <= 12)
  /\ (forall e, RelativeYearlyPattern.str p = Raise e ->
      exists msg, e = IndexError msg).
Proof.
  destruct p as [month week weekdays]. unfold RelativeYearlyPattern.str.
  cbn [RelativeYearlyPattern.weekdays RelativeYearlyPattern.week_number
       RelativeYearlyPattern.month].
  names_cases weekdays;
    [lookup_cases WEEK_NUMBERS (week - 1); [lookup_cases MONTHS (month - 1)|]|].
  - split; [split; [intros _; split_and!; done || lia|eauto]|done].
  - split; [split; [by intros [? ?]|intros (_ & _ & ?); lia]|intros e [= <-]; eauto].
  - split; [split; [by intros [? ?]|intros (_ & ? & _); lia]|intros e [= <-]; eauto].
  - split; [split; [by intros [? ?]|by intros (? & _ & _)]|intros e [= <-]; eauto].
Qed.

(** X13: for interval in 1..99, week_number in 1..5 and weekdays in 1..10
    the rendering of a RelativeMonthlyPattern is exactly "Occurs on weekdays
    {names} in the {WeekNumber[week_number]} week of every {interval}.
    month". *)
Theorem RelativeMonthlyPattern_str_format (p : RelativeMonthlyPattern.t) :
  1 <= RelativeMonthlyPattern.interval p <= 99 ->
  1 <= RelativeMonthlyPattern.week_number p <= 5 ->
  Forall (fun i => 1 <= i <= 10) (RelativeMonthlyPattern.weekdays p) ->
  exists names w,
    mapM (Spec.member_at WEEKDAYS) (RelativeMonthlyPattern.weekdays p) = Some names
    /\ Spec.member_at WEEK_NUMBERS (RelativeMonthlyPattern.week_number p) = Some w
    /\ RelativeMonthlyPattern.str p
       = Ok ("Occurs on weekdays " +:+ join ", " names +:+ " in the " +:+ w
             +:+ " week of every " +:+ str_int (RelativeMonthlyPattern.interval p)
             +:+ ". month").
Proof.
  intros _ Hweek Hdays.
  destruct (mapM (Spec.member_at WEEKDAYS) (RelativeMonthlyPattern.weekdays p))
    as [names|] eqn:Hnames.
  - destruct (member_at_is_Some WEEK_NUMBERS (RelativeMonthlyPattern.week_number p))
      as [w Hw]; [cbn; lia|].
    exists names, w. split_and!; [done..|]. unfold RelativeMonthlyPattern.str.
    rewrite (weekday_names_of _ _ Hnames). cbn [mbind result_bind].
    by rewrite (tuple_getitem_member_at _ _ _ Hw) by done.
  - exfalso. apply mapM_None_1, Exists_exists in Hnames as (i & Hi & Hnone).
    rewrite Forall_forall in Hdays. specialize (Hdays i Hi).
    destruct (member_at_is_Some WEEKDAYS i) as [n Hn]; [cbn; lia|]. congruence.
Qed.

Lemma RelativeMonthlyPattern_str_format_witness :
  RelativeMonthlyPattern.str (RelativeMonthlyPattern.mk 6 5 [2; 4])
  = Ok "Occurs on weekdays Tuesday, Thursday in the Last week of every 6. month".
Proof.
  destruct (RelativeMonthlyPattern_str_format (RelativeMonthlyPattern.mk 6 5 [2; 4]))
    as (names & w & Hnames & Hw & Hstr);
    [cbn; lia | cbn; lia | repeat constructor; lia |].
  rewrite Hstr. injection Hnames as <-. injection Hw as <-. reflexivity.
Defined.

(** X14: the rendering of a RelativeMonthlyPattern returns exactly when
    every weekday is in -9..10 and week_number in -4..5, and raises
    [IndexError] otherwise; the interval plays no part. *)
Theorem RelativeMonthlyPattern_str_window (p : RelativeMonthlyPattern.t) :
  ((exists s, RelativeMonthlyPattern.str p = Ok s)
   <-> Forall (fun i => -9 <= i <= 10) (RelativeMonthlyPattern.weekdays p)
       /\ -4 <= RelativeMonthlyPattern.week_number p <= 5)
  /\ (forall e, RelativeMonthlyPattern.str p = Raise e ->
      exists msg, e = IndexError msg).
Proof.
  destruct p as [interval week weekdays]. unfold RelativeMonthlyPattern.str.
  cbn [RelativeMonthlyPattern.weekdays RelativeMonthlyPattern.week_number
       RelativeMonthlyPattern.interval].
  names_cases weekdays; [lookup_cases WEEK_NUMBERS (week - 1)|].
  - split; [split; [intros _; split; [done|lia]|eauto]|done].
  - split; [split; [by intros [? ?]|intros [_ ?]; lia]|intros e [= <-]; eauto].
  - split; [split; [by intros [? ?]|by intros [? _]]|intros e [= <-]; eauto].
Qed.

(** ** What a rendering tells about the pattern *)

Lemma str_int_inj (z1 z2 : Z) : str_int z1 = str_int z2 -> z1 = z2.
Proof.
  unfold str_int. intros H.
  assert (forall z, NilZero.int_of_string (NilZero.string_of_int (Z.to_int z))
                    = Some (Z.to_int z)) as Hparse.
  { intros z. apply NilZero.isi; destruct z as [|q|q]; cbn; try done;
      intros [= Hnil]; by apply Unsigned.to_uint_nonnil in Hnil. }
  apply (f_equal NilZero.int_of_string) in H. rewrite !Hparse in H.
  injection H as H. apply (f_equal Z.of_int) in H. by rewrite !DecimalZ.of_to in H.
Qed.

Lemma uint_no_dot (d : Decimal.uint) :
  Text.occurs Text.full_stop (NilEmpty.string_of_uint d) = false.
Proof. induction d; cbn; done. Qed.

(** A decimal numeral has no full stop in it. *)
Lemma str_int_no_dot (z : Z) : Text.occurs Text.full_stop (str_int z) = false.
Proof.
  unfold str_int. destruct (Z.to_int z) as [d|d]; cbn.
  - destruct d; try done; apply (uint_no_dot (_ d)) || apply uint_no_dot.
  - destruct d; try done; apply (uint_no_dot (_ d)) || apply uint_no_dot.
Qed.

(** Two texts that agree, cut at the first occurrence of a character. *)
Lemma split_at_char (c : Ascii.ascii) (a b r1 r2 : string) :
  Text.occurs c a = false -> Text.occurs c b = false ->
  a +:+ String c r1 = b +:+ String c r2 -> a = b /\ r1 = r2.
Proof.
  revert b. induction a as [|x a IH]; intros [|y b]; cbn.
  - by intros _ _ [= ->].
  - intros _ Hb [= <- _]. by rewrite Ascii.eqb_refl in Hb.
  - intros Ha _ [= -> _]. by rewrite Ascii.eqb_refl in Ha.
  - destruct (Ascii.eqb x c); [done|]. destruct (Ascii.eqb y c); [done|].
    intros Ha Hb [= -> Hrest]. destruct (IH b Ha Hb Hrest) as [-> ->]. done.
Qed.

(** X15: the rendering of a DailyPattern determines the pattern: two
    patterns render alike only when their intervals are equal. *)
Theorem DailyPattern_str_injective (p q : DailyPattern.t) :
  DailyPattern.str p = DailyPattern.str q <-> p = q.
Proof.
  split; [|by intros ->]. destruct p as [i], q as [j].
  unfold DailyPattern.str. cbn. intros [= H].
  change (str_int i +:+ String Text.full_stop " day"
          = str_int j +:+ String Text.full_stop " day") in H.
  apply split_at_char in H as [H _]; [|apply str_int_no_dot..].
  by apply str_int_inj in H as ->.
Qed.

Lemma DailyPattern_str_injective_witness :
  DailyPattern.str (DailyPattern.mk 1) <> DailyPattern.str (DailyPattern.mk 11).
Proof.
  intros H.
  apply (proj1 (DailyPattern_str_injective (DailyPattern.mk 1) (DailyPattern.mk 11))) in H.
  discriminate H.
Defined.

(** X16: the rendering of an AbsoluteMonthlyPattern determines the pattern:
    two patterns render alike only when both the day of month and the
    interval are equal. *)
Theorem AbsoluteMonthlyPattern_str_injective (p q : AbsoluteMonthlyPattern.t) :
  AbsoluteMonthlyPattern.str p = AbsoluteMonthlyPattern.str q <-> p = q.
Proof.
  split; [|by intros ->]. destruct p as [i d], q as [j e].
  unfold AbsoluteMonthlyPattern.str. cbn. intros [= H].
  change (str_int d +:+ String Text.full_stop
            (" day of every " +:+ str_int i +:+ ". month")
          = str_int e +:+ String Text.full_stop
              (" day of every " +:+ str_int j +:+ ". month")) in H.
  apply split_at_char in H as [Hd H]; [|apply str_int_no_dot..].
  cbn in H. injection H as H.
  change (str_int i +:+ String Text.full_stop " month"
          = str_int j +:+ String Text.full_stop " month") in H.
  apply split_at_char in H as [Hi _]; [|apply str_int_no_dot..].
  apply str_int_inj in Hd as ->. by apply str_int_inj in Hi as ->.
Qed.

Lemma AbsoluteMonthlyPattern_str_injective_witness :
  AbsoluteMonthlyPattern.str (AbsoluteMonthlyPattern.mk 1 12)
  <> AbsoluteMonthlyPattern.str (AbsoluteMonthlyPattern.mk 11 2).
Proof.
  intros H.
  apply (proj1 (AbsoluteMonthlyPattern_str_injective
                  (AbsoluteMonthlyPattern.mk 1 12) (AbsoluteMonthlyPattern.mk 11 2))) in H.
  discriminate H.
Defined.

Lemma MONTHS_NoDup : NoDup MONTHS.
Proof. apply (bool_decide_unpack _). by vm_compute. Qed.

(** X17: with both months in 1..12 the rendering of an AbsoluteYearlyPattern
    determines the pattern: equal renderings mean equal month and equal day
    of month. *)
Theorem AbsoluteYearlyPattern_str_injective (p q : AbsoluteYearlyPattern.t) :
  1 <= AbsoluteYearlyPattern.month p <= 12 ->
  1 <= AbsoluteYearlyPattern.month q <= 12 ->
  AbsoluteYearlyPattern.str p = AbsoluteYearlyPattern.str q ->
  p = q.
Proof.
  destruct p as [mp dp], q as [mq dq]. cbn. intros Hp Hq.
  destruct (member_at_is_Some MONTHS mp) as [np Hnp]; [cbn; lia|].
  destruct (member_at_is_Some MONTHS mq) as [nq Hnq]; [cbn; lia|].
  unfold AbsoluteYearlyPattern.str. cbn.
  rewrite (tuple_getitem_member_at _ _ _ Hnp), (tuple_getitem_member_at _ _ _ Hnq)
    by done.
  cbn. intros [= H].
  change (str_int dp +:+ String Text.full_stop (" day of " +:+ np)
          = str_int dq +:+ String Text.full_stop (" day of " +:+ nq)) in H.
  apply split_at_char in H as [Hd H]; [|apply str_int_no_dot..].
  apply String.app_inj in H as ->. apply str_int_inj in Hd as ->.
  unfold Spec.member_at in Hnp, Hnq.
  rewrite (proj2 (Z.leb_le 1 mp)) in Hnp by lia.
  rewrite (proj2 (Z.leb_le 1 mq)) in Hnq by lia.
  pose proof (NoDup_lookup _ _ _ _ MONTHS_NoDup Hnp Hnq).
  f_equal. lia.
Qed.

Lemma AbsoluteYearlyPattern_str_injective_witness :
  AbsoluteYearlyPattern.str (AbsoluteYearlyPattern.mk 1 12)
  <> AbsoluteYearlyPattern.str (AbsoluteYearlyPattern.mk 12 1).
Proof.
  intros H.
  apply (AbsoluteYearlyPattern_str_injective
           (AbsoluteYearlyPattern.mk 1 12) (AbsoluteYearlyPattern.mk 12 1)) in H;
    [discriminate H | cbn; lia | cbn; lia].
Defined.
